(** * scenesMlForecast.ts: the ML forecasting dashboard configuration

    A shallow embedding of
    [src/myorg-myscenes-app/src/pages/MyForecast/scenesMlForecast.ts].

    The file assembles configuration objects of the scenes framework
    ([@grafana/scenes], [@grafana/schema], [@grafana/scenes-ml]).  An object
    [new C({...})] is modelled by the constructor [C] applied to the state
    record the source passes to it, so two objects are equal here exactly
    when they are structurally identical.  A JavaScript [number] is a
    binary64 float ([PrimFloat.float]); a field that may be [undefined] is an
    [option].  What the constructors add to an object at run time, a random
    key and the time range evaluated from the clock, is in [Runtime], where
    the dashboard and the app are built in a world that holds both. *)

From Stdlib Require Import Floats.
From Stdlib Require Import String Ascii List Bool ZArith DecimalString.
Import ListNotations.

Set Warnings "-inexact-float,-register-all".

Open Scope string_scope.

(** ** The JavaScript operators the file uses *)

Module Js.

Definition number : Set := float.

(** [x !== x] holds of NaN only. *)
Definition isNaN (x : number) : bool := negb (x =? x)%float.

(** ToBoolean on a number: [+0], [-0] and [NaN] are falsy. *)
Definition ToBoolean (x : number) : bool :=
  negb ((x =? 0)%float || isNaN x).

(** [o?.f]: [undefined] when [o] is [undefined], the field otherwise. *)
Definition optChain {A B : Type} (o : option A) (f : A -> option B) : option B :=
  match o with
  | None => None
  | Some a => f a
  end.

(** [v || d] for a possibly undefined number [v] and a number [d]. *)
Definition or (v : option number) (d : number) : number :=
  match v with
  | None => d
  | Some x => if ToBoolean x then x else d
  end.

(** A parameter with a default value: [p: T = d]. *)
Definition defaultParam {A : Type} (v : option A) (d : A) : A :=
  match v with
  | None => d
  | Some a => a
  end.

(** The double quote character, for query strings that contain it. *)
Definition dquote : string := String (ascii_of_nat 34) EmptyString.

End Js.

Bind Scope float_scope with Js.number.

(** The range test of the Config invariant: [0 < c && c < 1] on numbers.
    It is false of NaN, of both zeros, of 1 and of everything beyond. *)
Definition in_open_unit (c : Js.number) : bool :=
  ((0 <? c)%float && (c <? 1)%float)%bool.

(** ** Enumerations imported from [@grafana/schema] *)

Inductive LegendDisplayMode := LegendList | LegendTable | LegendHidden.
Inductive TooltipDisplayMode := TooltipSingle | TooltipMulti | TooltipNone.
Inductive SortOrder := SortAscending | SortDescending | SortNone.
Inductive GraphDrawStyle := DrawLine | DrawBars | DrawPoints.
Inductive LineInterpolation := Linear | Smooth | StepBefore | StepAfter.

(** ** State records of the scene classes *)

Record DataSourceRef := { uid : string }.

(** One entry of [queries]; [format] and [legendFormat] are optional. *)
Record DataQuery := {
  refId : string;
  expr : string;
  queryInterval : string;
  format : option string;
  legendFormat : option string
}.

Record SceneQueryRunnerState := {
  datasource : DataSourceRef;
  queries : list DataQuery
}.

(** The configuration passed to [new SceneBaseliner]. *)
Record SceneBaselinerState := {
  interval : Js.number;
  discoverSeasonalities : bool;
  pinned : bool
}.

Record LegendOptions := {
  displayMode : LegendDisplayMode;
  placement : string;
  calcs : option (list string)
}.

Record TooltipOptions := {
  mode : TooltipDisplayMode;
  sort : SortOrder
}.

Inductive OptionValue :=
| OptLegend (o : LegendOptions)
| OptTooltip (o : TooltipOptions).

Inductive CustomValue :=
| CvDrawStyle (s : GraphDrawStyle)
| CvLineInterpolation (i : LineInterpolation)
| CvNumber (n : Js.number)
| CvBool (b : bool).

Record FixedColor := { colorMode : string; fixedColor : string }.

(** A field override: the matcher and the properties set on it. *)
Record FieldOverride := {
  fieldsWithName : string;
  colorOverrides : list FixedColor
}.

Record VizPanelState (Obj : Type) := {
  pluginId : string;
  title : string;
  data : option SceneQueryRunnerState;
  headerActions : list Obj;
  options : list (string * OptionValue);
  customFieldConfig : list (string * CustomValue);
  unit_ : option string;
  overrides : list FieldOverride
}.
Arguments pluginId {Obj}.
Arguments title {Obj}.
Arguments data {Obj}.
Arguments headerActions {Obj}.
Arguments options {Obj}.
Arguments customFieldConfig {Obj}.
Arguments unit_ {Obj}.
Arguments overrides {Obj}.

Record SceneFlexItemState (Obj : Type) := {
  width : string;
  height : Js.number;
  body : Obj
}.
Arguments width {Obj}.
Arguments height {Obj}.
Arguments body {Obj}.

Record SceneFlexLayoutState (Obj : Type) := {
  direction : string;
  children : list Obj
}.
Arguments direction {Obj}.
Arguments children {Obj}.

Record SceneRefreshPickerState := {
  intervals : list string;
  refresh : string
}.

(** The scene objects that occur as header actions, controls and layout
    members. *)
Inductive SceneObject :=
| SceneBaseliner (st : SceneBaselinerState)
| SceneTimePicker
| SceneRefreshPicker (st : SceneRefreshPickerState)
| VizPanel (st : VizPanelState SceneObject)
| SceneFlexItem (st : SceneFlexItemState SceneObject)
| SceneFlexLayout (st : SceneFlexLayoutState SceneObject).

Record SceneTimeRangeState := { from : string; to : string }.

Record QueryVariableState := {
  name : string;
  label : string;
  varDatasource : DataSourceRef;
  query : string;
  value : string;
  includeAll : bool;
  allValue : string
}.

Record SceneVariableSetState := { variables : list QueryVariableState }.

Record EmbeddedSceneState := {
  timeRange : SceneTimeRangeState;
  sceneVariables : SceneVariableSetState;
  controls : list SceneObject;
  sceneBody : SceneObject
}.

(** The argument the framework hands to [getScene]. *)
Record SceneRouteMatch := {
  params : list (string * string);
  isExact : bool;
  path : string;
  url : string
}.

Record SceneAppPageState := {
  pageTitle : string;
  pageUrl : string;
  subTitle : string;
  routePath : string;
  getScene : SceneRouteMatch -> EmbeddedSceneState
}.

Record SceneAppState := { pages : list SceneAppPageState }.

(** ** The panel builder of [PanelBuilders]

    The builder is the framework's; what the source calls of it is modelled
    here.  Each setter returns the builder with one part of the panel state
    replaced; [build] makes the panel.  [setOption] and
    [setCustomFieldConfig] write one key of an object: the key is
    overwritten where it is present and added where it is not. *)

Fixpoint setKey {V : Type} (k : string) (v : V) (o : list (string * V))
  : list (string * V) :=
  match o with
  | [] => [(k, v)]
  | (k', v') :: rest =>
      if String.eqb k k' then (k, v) :: rest else (k', v') :: setKey k v rest
  end.

(** Method calls chain to the left, as in the source. *)
Notation "b '|>' m" := (m b) (at level 45, left associativity, only parsing).

Module FieldOverrides.

(** The overrides builder handed to the callback of [setOverrides]. *)
Definition builder : Type := list FieldOverride.

Definition matchFieldsWithName (n : string) (b : builder) : builder :=
  (b ++ [{| fieldsWithName := n; colorOverrides := [] |}])%list.

(** A property is added to the override opened last; the source opens one
    with [matchFieldsWithName] before each call. *)
Fixpoint overrideColor (c : FixedColor) (b : builder) : builder :=
  match b with
  | [] => []
  | [r] => [{| fieldsWithName := fieldsWithName r;
               colorOverrides := (colorOverrides r ++ [c])%list |}]
  | r :: rest => r :: overrideColor c rest
  end.

End FieldOverrides.

Module PanelBuilders.

Definition builder : Type := VizPanelState SceneObject.

Definition timeseries : builder :=
  {| pluginId := "timeseries";
     title := EmptyString;
     data := None;
     headerActions := [];
     options := [];
     customFieldConfig := [];
     unit_ := None;
     overrides := [] |}.

Definition setTitle (t : string) (b : builder) : builder :=
  {| pluginId := pluginId b; title := t; data := data b;
     headerActions := headerActions b; options := options b;
     customFieldConfig := customFieldConfig b; unit_ := unit_ b;
     overrides := overrides b |}.

Definition setData (d : SceneQueryRunnerState) (b : builder) : builder :=
  {| pluginId := pluginId b; title := title b; data := Some d;
     headerActions := headerActions b; options := options b;
     customFieldConfig := customFieldConfig b; unit_ := unit_ b;
     overrides := overrides b |}.

Definition setHeaderActions (a : list SceneObject) (b : builder) : builder :=
  {| pluginId := pluginId b; title := title b; data := data b;
     headerActions := a; options := options b;
     customFieldConfig := customFieldConfig b; unit_ := unit_ b;
     overrides := overrides b |}.

Definition setOption (k : string) (v : OptionValue) (b : builder) : builder :=
  {| pluginId := pluginId b; title := title b; data := data b;
     headerActions := headerActions b; options := setKey k v (options b);
     customFieldConfig := customFieldConfig b; unit_ := unit_ b;
     overrides := overrides b |}.

Definition setCustomFieldConfig (k : string) (v : CustomValue) (b : builder)
  : builder :=
  {| pluginId := pluginId b; title := title b; data := data b;
     headerActions := headerActions b; options := options b;
     customFieldConfig := setKey k v (customFieldConfig b);
     unit_ := unit_ b; overrides := overrides b |}.

Definition setUnit (u : string) (b : builder) : builder :=
  {| pluginId := pluginId b; title := title b; data := data b;
     headerActions := headerActions b; options := options b;
     customFieldConfig := customFieldConfig b; unit_ := Some u;
     overrides := overrides b |}.

Definition setOverrides
  (f : FieldOverrides.builder -> FieldOverrides.builder) (b : builder)
  : builder :=
  {| pluginId := pluginId b; title := title b; data := data b;
     headerActions := headerActions b; options := options b;
     customFieldConfig := customFieldConfig b; unit_ := unit_ b;
     overrides := f [] |}.

Definition build (b : builder) : SceneObject := VizPanel b.

End PanelBuilders.

Import PanelBuilders.

(** ** The panels of the source *)

(** [createForecastPanel(title, query)]: a time series panel with ML
    forecasting. *)
Definition createForecastPanel (title query : string) : SceneObject :=
  let baseliner := SceneBaseliner {|
    interval := 0.95;
    discoverSeasonalities := true;
    pinned := false |} in
  let queryRunner := {|
    datasource := {| uid := "prometheus" |};
    queries := [
      {| refId := "A";
         expr := query;
         queryInterval := "1m";
         format := Some "time_series";
         legendFormat := None |} ] |} in
  let panel := timeseries
    |> setTitle title
    |> setData queryRunner
    |> setHeaderActions [baseliner]
    |> setOption "legend"
         (OptLegend {| displayMode := LegendTable; placement := "right";
                       calcs := None |})
    |> setOption "tooltip"
         (OptTooltip {| mode := TooltipMulti; sort := SortDescending |})
    |> setCustomFieldConfig "drawStyle" (CvDrawStyle DrawLine)
    |> setCustomFieldConfig "lineInterpolation" (CvLineInterpolation Smooth)
    |> setCustomFieldConfig "lineWidth" (CvNumber 2)
    |> setCustomFieldConfig "fillOpacity" (CvNumber 10)
    |> setCustomFieldConfig "pointSize" (CvNumber 4)
    |> setCustomFieldConfig "spanNulls" (CvBool true)
    |> build in
  panel.

(** [createAnomalyDetectionPanel(title, query)]. *)
Definition createAnomalyDetectionPanel (title query : string) : SceneObject :=
  let baseliner := SceneBaseliner {|
    interval := 0.99;
    discoverSeasonalities := true;
    pinned := false |} in
  let queryRunner := {|
    datasource := {| uid := "prometheus" |};
    queries := [
      {| refId := "A";
         expr := query;
         queryInterval := "30s";
         format := Some "time_series";
         legendFormat := None |} ] |} in
  timeseries
    |> setTitle title
    |> setData queryRunner
    |> setHeaderActions [baseliner]
    |> setOption "legend"
         (OptLegend {| displayMode := LegendTable; placement := "bottom";
                       calcs := None |})
    |> setCustomFieldConfig "drawStyle" (CvDrawStyle DrawLine)
    |> setCustomFieldConfig "lineWidth" (CvNumber 1)
    |> setCustomFieldConfig "fillOpacity" (CvNumber 20)
    |> setUnit "short"
    |> build.

(** [createComparativeForecastPanel()]. *)
Definition createComparativeForecastPanel (_ : unit) : SceneObject :=
  let baseliner := SceneBaseliner {|
    interval := 0.90;
    discoverSeasonalities := true;
    pinned := false |} in
  let queryRunner := {|
    datasource := {| uid := "prometheus" |};
    queries := [
      {| refId := "A";
         expr := "rate(http_requests_total[5m])";
         queryInterval := "1m";
         format := None;
         legendFormat := Some "HTTP Requests/sec" |};
      {| refId := "B";
         expr := "rate(cpu_usage_total[5m])";
         queryInterval := "1m";
         format := None;
         legendFormat := Some "CPU Usage" |} ] |} in
  timeseries
    |> setTitle "Multi-Metric Forecast Comparison"
    |> setData queryRunner
    |> setHeaderActions [baseliner]
    |> setOption "legend"
         (OptLegend {| displayMode := LegendTable; placement := "right";
                       calcs := Some ["lastNotNull"; "mean"; "max"] |})
    |> setOption "tooltip"
         (OptTooltip {| mode := TooltipMulti; sort := SortDescending |})
    |> setCustomFieldConfig "drawStyle" (CvDrawStyle DrawLine)
    |> setCustomFieldConfig "lineWidth" (CvNumber 2)
    |> setOverrides (fun b =>
         let b := b
           |> FieldOverrides.matchFieldsWithName "HTTP Requests/sec"
           |> FieldOverrides.overrideColor
                {| colorMode := "fixed"; fixedColor := "blue" |} in
         b
           |> FieldOverrides.matchFieldsWithName "CPU Usage"
           |> FieldOverrides.overrideColor
                {| colorMode := "fixed"; fixedColor := "red" |})
    |> build.

(** ** The dashboard and the app *)

(** The label matchers [{instance=~"$instance", job=~"$job"}] of the
    dashboard's queries. *)
Definition instanceJobMatchers : string :=
  "{instance=~" ++ Js.dquote ++ "$instance" ++ Js.dquote
  ++ ", job=~" ++ Js.dquote ++ "$job" ++ Js.dquote ++ "}".

(** [createMLDashboard()]: the main dashboard scene. *)
Definition createMLDashboard (_ : unit) : EmbeddedSceneState :=
  let timeRange := {| from := "now-24h"; to := "now" |} in
  let variables := {| variables := [
    {| name := "instance";
       label := "Instance";
       varDatasource := {| uid := "prometheus" |};
       query := "label_values(up, instance)";
       value := "All";
       includeAll := true;
       allValue := ".*" |};
    {| name := "job";
       label := "Job";
       varDatasource := {| uid := "prometheus" |};
       query := "label_values(up, job)";
       value := "All";
       includeAll := true;
       allValue := ".*" |} ] |} in
  let scene := {|
    timeRange := timeRange;
    sceneVariables := variables;
    controls := [
      SceneTimePicker;
      SceneRefreshPicker {|
        intervals := ["5s"; "10s"; "30s"; "1m"; "5m"; "15m"; "30m"; "1h"];
        refresh := "30s" |} ];
    sceneBody := SceneFlexLayout {|
      direction := "column";
      children := [
        SceneFlexLayout {|
          direction := "row";
          children := [
            SceneFlexItem {|
              width := "50%";
              height := 400;
              body := createForecastPanel
                "CPU Usage Forecast"
                ("avg(rate(cpu_usage_seconds_total" ++ instanceJobMatchers
                 ++ "[5m])) * 100") |};
            SceneFlexItem {|
              width := "50%";
              height := 400;
              body := createForecastPanel
                "Memory Usage Forecast"
                ("avg(memory_usage_bytes" ++ instanceJobMatchers
                 ++ ") / 1024 / 1024 / 1024") |} ] |};
        SceneFlexLayout {|
          direction := "row";
          children := [
            SceneFlexItem {|
              width := "100%";
              height := 400;
              body := createAnomalyDetectionPanel
                "Network Traffic Anomaly Detection"
                ("sum(rate(network_bytes_total" ++ instanceJobMatchers
                 ++ "[5m]))") |} ] |};
        SceneFlexLayout {|
          direction := "row";
          children := [
            SceneFlexItem {|
              width := "100%";
              height := 400;
              body := createComparativeForecastPanel tt |} ] |} ] |} |} in
  scene.

(** [createMLForecastApp()]: one page whose [getScene] ignores its
    argument and builds the dashboard. *)
Definition createMLForecastApp (_ : unit) : SceneAppState :=
  let app := {|
    pages := [
      {| pageTitle := "ML Forecasting Dashboard";
         pageUrl := EmptyString;
         subTitle := "Predictive analytics with Grafana Scenes ML";
         routePath := "/ml-forecast";
         getScene := fun _ => createMLDashboard tt |} ] |} in
  app.

(** ** [MLForecastUtils] *)

Module MLForecastUtils.

(** The optional [options] argument of [createAdvancedBaseliner]; each
    field is optional. *)
Module Options.
Record t := {
  interval : option Js.number;
  customSeasonalities : option (list Js.number);
  anomalyThreshold : option Js.number
}.
End Options.

(** [createAdvancedBaseliner(options?)]: the interval is
    [options?.interval || 0.95]; nothing else of [options] is read and
    nothing is checked. *)
Definition createAdvancedBaseliner (options : option Options.t) : SceneObject :=
  SceneBaseliner {|
    interval := Js.or (Js.optChain options Options.interval) 0.95;
    discoverSeasonalities := true;
    pinned := false |}.

Section LongTermForecast.

(** Number to string conversion of the template literal, a built-in of
    the language. *)
Variable NumberToString : Js.number -> string.

(** [createLongTermForecastPanel(title, query, forecastHours = 24)]. *)
Definition createLongTermForecastPanel
  (title query : string) (forecastHours : option Js.number) : SceneObject :=
  let forecastHours := Js.defaultParam forecastHours 24%float in
  let baseliner := SceneBaseliner {|
    interval := 0.80;
    discoverSeasonalities := true;
    pinned := true |} in
  let queryRunner := {|
    datasource := {| uid := "prometheus" |};
    queries := [
      {| refId := "A";
         expr := query;
         queryInterval := "5m";
         format := Some "time_series";
         legendFormat := None |} ] |} in
  timeseries
    |> setTitle (title ++ " (" ++ NumberToString forecastHours
                 ++ "h forecast)")
    |> setData queryRunner
    |> setHeaderActions [baseliner]
    |> setOption "legend"
         (OptLegend {| displayMode := LegendTable; placement := "right";
                       calcs := None |})
    |> setCustomFieldConfig "drawStyle" (CvDrawStyle DrawLine)
    |> setCustomFieldConfig "lineWidth" (CvNumber 2)
    |> setCustomFieldConfig "fillOpacity" (CvNumber 15)
    |> build.

End LongTermForecast.

End MLForecastUtils.

(** ** The objects at run time

    The configuration above is what the source passes to the constructors.
    The constructors of the framework add to it: the base constructor of
    every scene object gives the object a [key] drawn with [uuidv4] (the
    source never passes one), and the constructor of [SceneTimeRange]
    evaluates [from] and [to] against the clock and stores the instants as
    [value].  Both read state that is no argument of the source's functions;
    it is threaded here as a [World].  Construction order is JavaScript's:
    the arguments of [new C(...)] first, left to right, then [C] itself. *)

Module Runtime.

(** The random source as the sequence of its draws with the number of
    draws made, and the clock ([Date.now()], in milliseconds). *)
Record World := {
  uuids : nat -> string;
  drawn : nat;
  now : Z
}.

Definition M (A : Type) : Type := World -> A * World.

Definition ret {A : Type} (a : A) : M A := fun w => (a, w).

Definition bind {A B : Type} (m : M A) (f : A -> M B) : M B :=
  fun w => let '(a, w') := m w in f a w'.

Notation "x <- m ;; k" := (bind m (fun x => k))
  (at level 61, m at next level, right associativity).

Definition uuidv4 : M string :=
  fun w => (uuids w (drawn w),
            {| uuids := uuids w; drawn := S (drawn w); now := now w |}).

Definition dateNow : M Z := fun w => (now w, w).

(** A scene object: the state its constructor was given and its key. *)
Record Obj (S : Type) := { key : string; state : S }.
Arguments key {S}.
Arguments state {S}.

(** The base constructor: [if (!state.key) state.key = uuidv4()]. *)
Definition new {S : Type} (s : S) : M (Obj S) :=
  k <- uuidv4 ;;
  ret {| key := k; state := s |}.

(** *** Date math

    The relative expressions of the time range: [now], and [now] moved by
    a number of seconds, minutes, hours, days or weeks.  Other expressions
    do not occur in the source and give no instant here. *)

Definition unitMillis (u : ascii) : option Z :=
  match u with
  | "s"%char => Some 1000%Z
  | "m"%char => Some 60000%Z
  | "h"%char => Some 3600000%Z
  | "d"%char => Some 86400000%Z
  | "w"%char => Some 604800000%Z
  | _ => None
  end.

Definition digitValue (c : ascii) : option Z :=
  let n := nat_of_ascii c in
  if ((48 <=? n)%nat && (n <=? 57)%nat)%bool
  then Some (Z.of_nat (n - 48))
  else None.

(** The amount and the unit of [<digits><unit>], nothing before or after. *)
Fixpoint amountMillis (acc : option Z) (s : string) : option Z :=
  match s with
  | EmptyString => None
  | String c rest =>
      match digitValue c with
      | Some d =>
          amountMillis
            (Some (10 * match acc with Some a => a | None => 0 end + d)%Z)
            rest
      | None =>
          match acc, unitMillis c, rest with
          | Some a, Some u, EmptyString => Some (a * u)%Z
          | _, _, _ => None
          end
      end
  end.

Definition dateMathParse (e : string) (t : Z) : option Z :=
  match e with
  | String "n" (String "o" (String "w" rest)) =>
      match rest with
      | EmptyString => Some t
      | String "-" amount => option_map (fun a => t - a)%Z (amountMillis None amount)
      | String "+" amount => option_map (fun a => t + a)%Z (amountMillis None amount)
      | _ => None
      end
  | _ => None
  end.

Record TimeRangeValue := {
  fromTime : option Z;
  toTime : option Z
}.

Definition evaluateTimeRange (from to : string) : M TimeRangeValue :=
  t <- dateNow ;;
  ret {| fromTime := dateMathParse from t; toTime := dateMathParse to t |}.

(** *** The classes *)

Record SceneTimeRangeInst := {
  rangeFrom : string;
  rangeTo : string;
  rangeValue : TimeRangeValue
}.

Record VizPanelInst (I : Type) := {
  pluginId : string;
  title : string;
  data : option (Obj SceneQueryRunnerState);
  headerActions : list I;
  options : list (string * OptionValue);
  customFieldConfig : list (string * CustomValue);
  unit_ : option string;
  overrides : list FieldOverride
}.
Arguments pluginId {I}.
Arguments title {I}.
Arguments data {I}.
Arguments headerActions {I}.
Arguments options {I}.
Arguments customFieldConfig {I}.
Arguments unit_ {I}.
Arguments overrides {I}.

Inductive Instance :=
| SceneBaseliner (o : Obj SceneBaselinerState)
| SceneTimePicker (o : Obj unit)
| SceneRefreshPicker (o : Obj SceneRefreshPickerState)
| VizPanel (o : Obj (VizPanelInst Instance))
| SceneFlexItem (o : Obj (SceneFlexItemState Instance))
| SceneFlexLayout (o : Obj (SceneFlexLayoutState Instance)).

Record EmbeddedSceneInst := {
  timeRange : Obj SceneTimeRangeInst;
  sceneVariables : Obj (list (Obj QueryVariableState));
  controls : list Instance;
  sceneBody : Instance
}.

Record SceneAppPageInst := {
  pageTitle : string;
  pageUrl : string;
  subTitle : string;
  routePath : string;
  getScene : SceneRouteMatch -> M (Obj EmbeddedSceneInst)
}.

Record SceneAppInst := { pages : list (Obj SceneAppPageInst) }.

Definition newSceneBaseliner (st : SceneBaselinerState) : M Instance :=
  o <- new st ;; ret (SceneBaseliner o).

Definition newSceneTimePicker : M Instance :=
  o <- new tt ;; ret (SceneTimePicker o).

Definition newSceneRefreshPicker (st : SceneRefreshPickerState) : M Instance :=
  o <- new st ;; ret (SceneRefreshPicker o).

Definition newSceneFlexItem (st : SceneFlexItemState Instance) : M Instance :=
  o <- new st ;; ret (SceneFlexItem o).

Definition newSceneFlexLayout (st : SceneFlexLayoutState Instance) : M Instance :=
  o <- new st ;; ret (SceneFlexLayout o).

(** [new SceneTimeRange({from, to})]: the value is evaluated, then the base
    constructor runs. *)
Definition newSceneTimeRange (from to : string) : M (Obj SceneTimeRangeInst) :=
  v <- evaluateTimeRange from to ;;
  new {| rangeFrom := from; rangeTo := to; rangeValue := v |}.

(** *** The panel builder: its setters make no object, [build] makes the
    panel. *)

Module PanelBuilders.

Definition builder : Type := VizPanelInst Instance.

Definition timeseries : builder :=
  {| pluginId := "timeseries";
     title := EmptyString;
     data := None;
     headerActions := [];
     options := [];
     customFieldConfig := [];
     unit_ := None;
     overrides := [] |}.

Definition setTitle (t : string) (b : builder) : builder :=
  {| pluginId := pluginId b; title := t; data := data b;
     headerActions := headerActions b; options := options b;
     customFieldConfig := customFieldConfig b; unit_ := unit_ b;
     overrides := overrides b |}.

Definition setData (d : Obj SceneQueryRunnerState) (b : builder) : builder :=
  {| pluginId := pluginId b; title := title b; data := Some d;
     headerActions := headerActions b; options := options b;
     customFieldConfig := customFieldConfig b; unit_ := unit_ b;
     overrides := overrides b |}.

Definition setHeaderActions (a : list Instance) (b : builder) : builder :=
  {| pluginId := pluginId b; title := title b; data := data b;
     headerActions := a; options := options b;
     customFieldConfig := customFieldConfig b; unit_ := unit_ b;
     overrides := overrides b |}.

Definition setOption (k : string) (v : OptionValue) (b : builder) : builder :=
  {| pluginId := pluginId b; title := title b; data := data b;
     headerActions := headerActions b; options := setKey k v (options b);
     customFieldConfig := customFieldConfig b; unit_ := unit_ b;
     overrides := overrides b |}.

Definition setCustomFieldConfig (k : string) (v : CustomValue) (b : builder)
  : builder :=
  {| pluginId := pluginId b; title := title b; data := data b;
     headerActions := headerActions b; options := options b;
     customFieldConfig := setKey k v (customFieldConfig b);
     unit_ := unit_ b; overrides := overrides b |}.

Definition setUnit (u : string) (b : builder) : builder :=
  {| pluginId := pluginId b; title := title b; data := data b;
     headerActions := headerActions b; options := options b;
     customFieldConfig := customFieldConfig b; unit_ := Some u;
     overrides := overrides b |}.

Definition setOverrides
  (f : FieldOverrides.builder -> FieldOverrides.builder) (b : builder)
  : builder :=
  {| pluginId := pluginId b; title := title b; data := data b;
     headerActions := headerActions b; options := options b;
     customFieldConfig := customFieldConfig b; unit_ := unit_ b;
     overrides := f [] |}.

Definition build (b : builder) : M Instance :=
  o <- new b ;; ret (VizPanel o).

End PanelBuilders.

Import PanelBuilders.

(** *** The functions of the source *)

Definition createForecastPanel (title query : string) : M Instance :=
  baseliner <- newSceneBaseliner {|
    interval := 0.95;
    discoverSeasonalities := true;
    pinned := false |} ;;
  queryRunner <- new {|
    datasource := {| uid := "prometheus" |};
    queries := [
      {| refId := "A";
         expr := query;
         queryInterval := "1m";
         format := Some "time_series";
         legendFormat := None |} ] |} ;;
  panel <- timeseries
    |> setTitle title
    |> setData queryRunner
    |> setHeaderActions [baseliner]
    |> setOption "legend"
         (OptLegend {| displayMode := LegendTable; placement := "right";
                       calcs := None |})
    |> setOption "tooltip"
         (OptTooltip {| mode := TooltipMulti; sort := SortDescending |})
    |> setCustomFieldConfig "drawStyle" (CvDrawStyle DrawLine)
    |> setCustomFieldConfig "lineInterpolation" (CvLineInterpolation Smooth)
    |> setCustomFieldConfig "lineWidth" (CvNumber 2)
    |> setCustomFieldConfig "fillOpacity" (CvNumber 10)
    |> setCustomFieldConfig "pointSize" (CvNumber 4)
    |> setCustomFieldConfig "spanNulls" (CvBool true)
    |> build ;;
  ret panel.

Definition createAnomalyDetectionPanel (title query : string) : M Instance :=
  baseliner <- newSceneBaseliner {|
    interval := 0.99;
    discoverSeasonalities := true;
    pinned := false |} ;;
  queryRunner <- new {|
    datasource := {| uid := "prometheus" |};
    queries := [
      {| refId := "A";
         expr := query;
         queryInterval := "30s";
         format := Some "time_series";
         legendFormat := None |} ] |} ;;
  timeseries
    |> setTitle title
    |> setData queryRunner
    |> setHeaderActions [baseliner]
    |> setOption "legend"
         (OptLegend {| displayMode := LegendTable; placement := "bottom";
                       calcs := None |})
    |> setCustomFieldConfig "drawStyle" (CvDrawStyle DrawLine)
    |> setCustomFieldConfig "lineWidth" (CvNumber 1)
    |> setCustomFieldConfig "fillOpacity" (CvNumber 20)
    |> setUnit "short"
    |> build.

Definition createComparativeForecastPanel (_ : unit) : M Instance :=
  baseliner <- newSceneBaseliner {|
    interval := 0.90;
    discoverSeasonalities := true;
    pinned := false |} ;;
  queryRunner <- new {|
    datasource := {| uid := "prometheus" |};
    queries := [
      {| refId := "A";
         expr := "rate(http_requests_total[5m])";
         queryInterval := "1m";
         format := None;
         legendFormat := Some "HTTP Requests/sec" |};
      {| refId := "B";
         expr := "rate(cpu_usage_total[5m])";
         queryInterval := "1m";
         format := None;
         legendFormat := Some "CPU Usage" |} ] |} ;;
  timeseries
    |> setTitle "Multi-Metric Forecast Comparison"
    |> setData queryRunner
    |> setHeaderActions [baseliner]
    |> setOption "legend"
         (OptLegend {| displayMode := LegendTable; placement := "right";
                       calcs := Some ["lastNotNull"; "mean"; "max"] |})
    |> setOption "tooltip"
         (OptTooltip {| mode := TooltipMulti; sort := SortDescending |})
    |> setCustomFieldConfig "drawStyle" (CvDrawStyle DrawLine)
    |> setCustomFieldConfig "lineWidth" (CvNumber 2)
    |> setOverrides (fun b =>
         let b := b
           |> FieldOverrides.matchFieldsWithName "HTTP Requests/sec"
           |> FieldOverrides.overrideColor
                {| colorMode := "fixed"; fixedColor := "blue" |} in
         b
           |> FieldOverrides.matchFieldsWithName "CPU Usage"
           |> FieldOverrides.overrideColor
                {| colorMode := "fixed"; fixedColor := "red" |})
    |> build.

(** [createMLDashboard()].  The objects are made in the order the source
    evaluates them: the time range, the variables and their set, then, as
    arguments of the scene, the controls and the layout from the inside
    out, and the scene last. *)
Definition createMLDashboard (_ : unit) : M (Obj EmbeddedSceneInst) :=
  timeRange <- newSceneTimeRange "now-24h" "now" ;;
  instance <- new {|
    name := "instance";
    label := "Instance";
    varDatasource := {| uid := "prometheus" |};
    query := "label_values(up, instance)";
    value := "All";
    includeAll := true;
    allValue := ".*" |} ;;
  job <- new {|
    name := "job";
    label := "Job";
    varDatasource := {| uid := "prometheus" |};
    query := "label_values(up, job)";
    value := "All";
    includeAll := true;
    allValue := ".*" |} ;;
  variables <- new [instance; job] ;;
  timePicker <- newSceneTimePicker ;;
  refreshPicker <- newSceneRefreshPicker {|
    intervals := ["5s"; "10s"; "30s"; "1m"; "5m"; "15m"; "30m"; "1h"];
    refresh := "30s" |} ;;
  cpu <- createForecastPanel
    "CPU Usage Forecast"
    ("avg(rate(cpu_usage_seconds_total" ++ instanceJobMatchers
     ++ "[5m])) * 100") ;;
  cpuItem <- newSceneFlexItem {|
    width := "50%"; height := 400; body := cpu |} ;;
  memory <- createForecastPanel
    "Memory Usage Forecast"
    ("avg(memory_usage_bytes" ++ instanceJobMatchers
     ++ ") / 1024 / 1024 / 1024") ;;
  memoryItem <- newSceneFlexItem {|
    width := "50%"; height := 400; body := memory |} ;;
  row1 <- newSceneFlexLayout {|
    direction := "row"; children := [cpuItem; memoryItem] |} ;;
  network <- createAnomalyDetectionPanel
    "Network Traffic Anomaly Detection"
    ("sum(rate(network_bytes_total" ++ instanceJobMatchers ++ "[5m]))") ;;
  networkItem <- newSceneFlexItem {|
    width := "100%"; height := 400; body := network |} ;;
  row2 <- newSceneFlexLayout {|
    direction := "row"; children := [networkItem] |} ;;
  comparative <- createComparativeForecastPanel tt ;;
  comparativeItem <- newSceneFlexItem {|
    width := "100%"; height := 400; body := comparative |} ;;
  row3 <- newSceneFlexLayout {|
    direction := "row"; children := [comparativeItem] |} ;;
  layout <- newSceneFlexLayout {|
    direction := "column"; children := [row1; row2; row3] |} ;;
  scene <- new {|
    timeRange := timeRange;
    sceneVariables := variables;
    controls := [timePicker; refreshPicker];
    sceneBody := layout |} ;;
  ret scene.

(** [createMLForecastApp()]: the page, then the app.  [getScene] builds the
    dashboard in the world it is called in. *)
Definition createMLForecastApp (_ : unit) : M (Obj SceneAppInst) :=
  page <- new {|
    pageTitle := "ML Forecasting Dashboard";
    pageUrl := EmptyString;
    subTitle := "Predictive analytics with Grafana Scenes ML";
    routePath := "/ml-forecast";
    getScene := fun _ => createMLDashboard tt |} ;;
  app <- new {| pages := [page] |} ;;
  ret app.

End Runtime.


(** ** Observations on scene objects *)

(** The header actions of a panel; other objects have none. *)
Definition panelHeaderActions (o : SceneObject) : list SceneObject :=
  match o with
  | VizPanel st => headerActions st
  | _ => []
  end.

Definition isVizPanel (o : SceneObject) : bool :=
  match o with
  | VizPanel _ => true
  | _ => false
  end.

Definition isSceneBaseliner (o : SceneObject) : bool :=
  match o with
  | SceneBaseliner _ => true
  | _ => false
  end.

(** Every baseliner configuration that occurs in an object: the object
    itself, the header actions of a panel, the members of a layout. *)
Fixpoint baseliners (o : SceneObject) : list SceneBaselinerState :=
  match o with
  | SceneBaseliner st => [st]
  | SceneTimePicker => []
  | SceneRefreshPicker _ => []
  | VizPanel st => flat_map baseliners (headerActions st)
  | SceneFlexItem st => baseliners (body st)
  | SceneFlexLayout st => flat_map baseliners (children st)
  end.

(** The panels of a layout, in document order. *)
Fixpoint panels (o : SceneObject) : list (VizPanelState SceneObject) :=
  match o with
  | VizPanel st => [st]
  | SceneFlexItem st => panels (body st)
  | SceneFlexLayout st => flat_map panels (children st)
  | _ => []
  end.

(** The query expressions a panel runs. *)
Definition panelQueries (st : VizPanelState SceneObject) : list string :=
  match data st with
  | None => []
  | Some d => map expr (queries d)
  end.

(** A panel function respects the Config invariant when it constructs
    exactly one baseliner and that baseliner's interval is in (0,1). *)
Definition baselinerInRange (o : SceneObject) : Prop :=
  length (baseliners o) = 1 /\
  Forall (fun st => in_open_unit (interval st) = true) (baseliners o).

(** The settings the four panel functions give their baseliner. *)
Definition forecastBaseliner : SceneBaselinerState :=
  {| interval := 0.95; discoverSeasonalities := true; pinned := false |}.
Definition anomalyBaseliner : SceneBaselinerState :=
  {| interval := 0.99; discoverSeasonalities := true; pinned := false |}.
Definition comparativeBaseliner : SceneBaselinerState :=
  {| interval := 0.90; discoverSeasonalities := true; pinned := false |}.
Definition longTermBaseliner : SceneBaselinerState :=
  {| interval := 0.80; discoverSeasonalities := true; pinned := true |}.

(** An options argument whose interval, 1.5, is not a confidence level. *)
Definition optionsInterval1_5 : MLForecastUtils.Options.t :=
  {| MLForecastUtils.Options.interval := Some 1.5%float;
     MLForecastUtils.Options.customSeasonalities := None;
     MLForecastUtils.Options.anomalyThreshold := None |}.

(** A panel carries the baseliner [cfg] as a header action. *)
Definition baselinerAttached (o : SceneObject) (cfg : SceneBaselinerState)
  : Prop :=
  isVizPanel o = true /\
  In (SceneBaseliner cfg) (panelHeaderActions o) /\
  existsb isSceneBaseliner (panelHeaderActions o) = true.

(** What the dashboard shows: the time range, the names of the variables,
    and per panel, in order, the title, the queries and the baseliners. *)
Record DashboardSummary := {
  summaryTimeRange : SceneTimeRangeState;
  summaryVariables : list string;
  summaryPanels : list (string * list string * list SceneBaselinerState)
}.

Definition summarise (d : EmbeddedSceneState) : DashboardSummary :=
  {| summaryTimeRange := timeRange d;
     summaryVariables := map name (variables (sceneVariables d));
     summaryPanels :=
       map (fun st => (title st, panelQueries st, baseliners (VizPanel st)))
           (panels (sceneBody d)) |}.

(** A panel is bound to the query source: it is a time series panel whose
    data is a query runner on the prometheus data source, with at least one
    query and no two queries under one [refId]. *)
Definition boundToPrometheus (st : VizPanelState SceneObject) : Prop :=
  pluginId st = "timeseries" /\
  exists d : SceneQueryRunnerState,
    data st = Some d /\
    uid (datasource d) = "prometheus" /\
    queries d <> [] /\
    NoDup (map refId (queries d)).

(** ** The configuration of a run-time object

    What is left of an object when the keys and the evaluated time range
    value are dropped: the configuration the source supplied. *)

Fixpoint configOf (i : Runtime.Instance) : SceneObject :=
  match i with
  | Runtime.SceneBaseliner o => SceneBaseliner (Runtime.state o)
  | Runtime.SceneTimePicker _ => SceneTimePicker
  | Runtime.SceneRefreshPicker o => SceneRefreshPicker (Runtime.state o)
  | Runtime.VizPanel o =>
      let st := Runtime.state o in
      VizPanel {|
        pluginId := Runtime.pluginId st;
        title := Runtime.title st;
        data := option_map Runtime.state (Runtime.data st);
        headerActions := map configOf (Runtime.headerActions st);
        options := Runtime.options st;
        customFieldConfig := Runtime.customFieldConfig st;
        unit_ := Runtime.unit_ st;
        overrides := Runtime.overrides st |}
  | Runtime.SceneFlexItem o =>
      let st := Runtime.state o in
      SceneFlexItem {|
        width := width st;
        height := height st;
        body := configOf (body st) |}
  | Runtime.SceneFlexLayout o =>
      let st := Runtime.state o in
      SceneFlexLayout {|
        direction := direction st;
        children := map configOf (children st) |}
  end.

Definition sceneConfigOf (s : Runtime.Obj Runtime.EmbeddedSceneInst)
  : EmbeddedSceneState :=
  let st := Runtime.state s in
  {| timeRange :=
       {| from := Runtime.rangeFrom (Runtime.state (Runtime.timeRange st));
          to := Runtime.rangeTo (Runtime.state (Runtime.timeRange st)) |};
     sceneVariables :=
       {| variables :=
            map Runtime.state (Runtime.state (Runtime.sceneVariables st)) |};
     controls := map configOf (Runtime.controls st);
     sceneBody := configOf (Runtime.sceneBody st) |}.

(** The configuration of an app; its scenes are those [getScene] builds in
    the world [w]. *)
Definition appConfigOf (w : Runtime.World) (a : Runtime.Obj Runtime.SceneAppInst)
  : SceneAppState :=
  {| pages :=
       map (fun p =>
              let st := Runtime.state p in
              {| pageTitle := Runtime.pageTitle st;
                 pageUrl := Runtime.pageUrl st;
                 subTitle := Runtime.subTitle st;
                 routePath := Runtime.routePath st;
                 getScene := fun m =>
                   sceneConfigOf (fst (Runtime.getScene st m w)) |})
           (Runtime.pages (Runtime.state a)) |}.

(** Every key of an object and of its parts, in construction order. *)
Fixpoint keysOf (i : Runtime.Instance) : list string :=
  match i with
  | Runtime.SceneBaseliner o => [Runtime.key o]
  | Runtime.SceneTimePicker o => [Runtime.key o]
  | Runtime.SceneRefreshPicker o => [Runtime.key o]
  | Runtime.VizPanel o =>
      (flat_map keysOf (Runtime.headerActions (Runtime.state o))
       ++ match Runtime.data (Runtime.state o) with
          | Some d => [Runtime.key d]
          | None => []
          end
       ++ [Runtime.key o])%list
  | Runtime.SceneFlexItem o =>
      (keysOf (body (Runtime.state o)) ++ [Runtime.key o])%list
  | Runtime.SceneFlexLayout o =>
      (flat_map keysOf (children (Runtime.state o)) ++ [Runtime.key o])%list
  end.

Definition sceneKeysOf (s : Runtime.Obj Runtime.EmbeddedSceneInst)
  : list string :=
  let st := Runtime.state s in
  (Runtime.key (Runtime.timeRange st)
   :: map Runtime.key (Runtime.state (Runtime.sceneVariables st))
   ++ Runtime.key (Runtime.sceneVariables st)
   :: flat_map keysOf (Runtime.controls st)
   ++ keysOf (Runtime.sceneBody st)
   ++ [Runtime.key s])%list.

(** A world whose random source draws [uuid-0], [uuid-1], ... and whose
    clock reads [t]. *)
Definition worldAt (t : Z) : Runtime.World :=
  {| Runtime.uuids := fun n => "uuid-" ++ NilEmpty.string_of_uint (Nat.to_uint n);
     Runtime.drawn := 0;
     Runtime.now := t |}.

(** The route match of the page's own path. *)
Definition forecastRoute : SceneRouteMatch :=
  {| params := []; isExact := true;
     path := "/ml-forecast"; url := "/ml-forecast" |}.

(** Two calls of [createMLForecastApp], one after the other. *)
Definition firstCall : Runtime.Obj Runtime.SceneAppInst * Runtime.World :=
  Runtime.createMLForecastApp tt (worldAt 1700000000000).
Definition secondCall : Runtime.Obj Runtime.SceneAppInst * Runtime.World :=
  Runtime.createMLForecastApp tt (snd firstCall).

(** The scenes the pages of an app build for a route match, in a world. *)
Definition scenesOf (a : Runtime.Obj Runtime.SceneAppInst)
  (m : SceneRouteMatch) (w : Runtime.World)
  : list (Runtime.Obj Runtime.EmbeddedSceneInst) :=
  map (fun p => fst (Runtime.getScene (Runtime.state p) m w))
      (Runtime.pages (Runtime.state a)).

Definition sceneTimeValue (s : Runtime.Obj Runtime.EmbeddedSceneInst)
  : Runtime.TimeRangeValue :=
  Runtime.rangeValue (Runtime.state (Runtime.timeRange (Runtime.state s))).

(** * Properties *)

Import MLForecastUtils.

(** ** The falsy-or fallback *)

Lemma Js_or_undefined (d : Js.number) : Js.or None d = d.
Proof. reflexivity. Qed.

Lemma Js_or_truthy (c d : Js.number) :
  Js.ToBoolean c = true -> Js.or (Some c) d = c.
Proof. intros T. unfold Js.or. now rewrite T. Qed.

Lemma Js_or_falsy (c d : Js.number) :
  Js.ToBoolean c = false -> Js.or (Some c) d = d.
Proof. intros T. unfold Js.or. now rewrite T. Qed.

Lemma ToBoolean_zero : Js.ToBoolean 0 = false /\ Js.ToBoolean (-0) = false.
Proof. split; reflexivity. Qed.

Lemma ToBoolean_nan : Js.ToBoolean nan = false.
Proof. reflexivity. Qed.

Lemma Prim2SF_zero : Prim2SF 0 = S754_zero false.
Proof. reflexivity. Qed.

(** A falsy number is never in (0,1): the fallback only ever replaces
    values that are no confidence level.  By cases on the IEEE class of the
    number, through the specification of the comparisons. *)
Lemma falsy_not_in_open_unit (c : Js.number) :
  Js.ToBoolean c = false -> in_open_unit c = false.
Proof.
  unfold Js.ToBoolean, Js.isNaN, in_open_unit.
  rewrite !FloatAxioms.eqb_spec, !ltb_spec, Prim2SF_zero.
  generalize (Prim2SF 1); intros one.
  destruct (Prim2SF c) as [s | s | | s m e]; try destruct s;
    unfold SFeqb, SFltb, SFcompare;
    try reflexivity; try discriminate.
  all: rewrite ?Z.compare_refl, ?Pos.compare_refl; discriminate.
Qed.

Lemma createAdvancedBaseliner_interval (o : Options.t) :
  createAdvancedBaseliner (Some o) =
  SceneBaseliner {| interval := Js.or (Options.interval o) 0.95;
                    discoverSeasonalities := true;
                    pinned := false |}.
Proof. reflexivity. Qed.

(** Whatever the interval given, a falsy one yields the default. *)
Lemma createAdvancedBaseliner_falsy (o : Options.t) (c : Js.number) :
  Options.interval o = Some c ->
  Js.ToBoolean c = false ->
  createAdvancedBaseliner (Some o) =
    SceneBaseliner {| interval := 0.95;
                      discoverSeasonalities := true;
                      pinned := false |}.
Proof.
  intros I T. rewrite createAdvancedBaseliner_interval, I.
  now rewrite (Js_or_falsy _ _ T).
Qed.

(** C1, as stated, fails: the options with interval 1.5, which is outside
    (0,1), are not rejected; [createAdvancedBaseliner] returns a baseliner
    whose interval is 1.5. *)
Lemma createAdvancedBaseliner_accepts_out_of_range :
  Options.interval optionsInterval1_5 = Some 1.5%float /\
  in_open_unit 1.5 = false /\
  createAdvancedBaseliner (Some optionsInterval1_5) =
    SceneBaseliner {| interval := 1.5;
                      discoverSeasonalities := true;
                      pinned := false |}.
Proof. repeat split. Qed.

(** C1, as amended: [createAdvancedBaseliner] validates nothing.  For every
    options argument whose interval is a number other than 0 and NaN, inside
    (0,1) or outside, it returns a baseliner that carries exactly that
    interval, with seasonality discovery on and not pinned. *)
Theorem createAdvancedBaseliner_carries_truthy_interval :
  forall (o : Options.t) (c : Js.number),
    Options.interval o = Some c ->
    Js.ToBoolean c = true ->
    createAdvancedBaseliner (Some o) =
      SceneBaseliner {| interval := c;
                        discoverSeasonalities := true;
                        pinned := false |}.
Proof.
  intros o c I T. rewrite createAdvancedBaseliner_interval, I.
  now rewrite (Js_or_truthy _ _ T).
Qed.

Lemma createAdvancedBaseliner_carries_truthy_interval_witness :
  Options.interval optionsInterval1_5 = Some 1.5%float /\
  Js.ToBoolean 1.5 = true /\
  createAdvancedBaseliner (Some optionsInterval1_5) =
    SceneBaseliner {| interval := 1.5;
                      discoverSeasonalities := true;
                      pinned := false |}.
Proof.
  split; [reflexivity | split; [reflexivity | ]].
  apply (createAdvancedBaseliner_carries_truthy_interval
           optionsInterval1_5 1.5%float); reflexivity.
Defined.

(** C10: with [options] omitted, with [interval] undefined, and with
    [interval] equal to 0, [createAdvancedBaseliner] returns the baseliner
    with the default interval 0.95; a 0 is replaced, not passed through. *)
Theorem createAdvancedBaseliner_default_interval :
  createAdvancedBaseliner None =
    SceneBaseliner {| interval := 0.95;
                      discoverSeasonalities := true;
                      pinned := false |} /\
  (forall s t,
     createAdvancedBaseliner
       (Some {| Options.interval := None;
                Options.customSeasonalities := s;
                Options.anomalyThreshold := t |}) =
    SceneBaseliner {| interval := 0.95;
                      discoverSeasonalities := true;
                      pinned := false |}) /\
  (forall s t,
     createAdvancedBaseliner
       (Some {| Options.interval := Some 0%float;
                Options.customSeasonalities := s;
                Options.anomalyThreshold := t |}) =
    SceneBaseliner {| interval := 0.95;
                      discoverSeasonalities := true;
                      pinned := false |}).
Proof.
  split; [ | split ].
  - unfold createAdvancedBaseliner. cbn [Js.optChain].
    now rewrite Js_or_undefined.
  - intros s t. rewrite createAdvancedBaseliner_interval.
    cbn [Options.interval]. now rewrite Js_or_undefined.
  - intros s t.
    apply (createAdvancedBaseliner_falsy _ 0%float); [reflexivity | ].
    apply ToBoolean_zero.
Qed.

(** The interval of the baseliner returned for a given interval [c] is in
    (0,1) exactly when [c] is, or when [c] is falsy and the default took its
    place. *)
Lemma createAdvancedBaseliner_in_range (o : Options.t) (c : Js.number) :
  Options.interval o = Some c ->
  map (fun st => in_open_unit (interval st))
      (baseliners (createAdvancedBaseliner (Some o)))
  = [(in_open_unit c || negb (Js.ToBoolean c))%bool].
Proof.
  intros I. rewrite createAdvancedBaseliner_interval, I. cbn [baseliners map interval].
  destruct (Js.ToBoolean c) eqn:T.
  - rewrite (Js_or_truthy _ _ T). now rewrite orb_false_r.
  - rewrite (Js_or_falsy _ _ T), (falsy_not_in_open_unit _ T). reflexivity.
Qed.

(** ** The panels *)

(** Of the builder's setters only [setHeaderActions] touches the header
    actions. *)
Lemma headerActions_setHeaderActions (a : list SceneObject) (b : builder) :
  headerActions (setHeaderActions a b) = a.
Proof. reflexivity. Qed.

Lemma headerActions_setTitle (t : string) (b : builder) :
  headerActions (setTitle t b) = headerActions b.
Proof. reflexivity. Qed.

Lemma headerActions_setData (d : SceneQueryRunnerState) (b : builder) :
  headerActions (setData d b) = headerActions b.
Proof. reflexivity. Qed.

Lemma headerActions_setOption (k : string) (v : OptionValue) (b : builder) :
  headerActions (setOption k v b) = headerActions b.
Proof. reflexivity. Qed.

Lemma headerActions_setCustomFieldConfig
  (k : string) (v : CustomValue) (b : builder) :
  headerActions (setCustomFieldConfig k v b) = headerActions b.
Proof. reflexivity. Qed.

Lemma headerActions_setUnit (u : string) (b : builder) :
  headerActions (setUnit u b) = headerActions b.
Proof. reflexivity. Qed.

Lemma headerActions_setOverrides
  (f : FieldOverrides.builder -> FieldOverrides.builder) (b : builder) :
  headerActions (setOverrides f b) = headerActions b.
Proof. reflexivity. Qed.

Lemma panelHeaderActions_build (b : builder) :
  panelHeaderActions (build b) = headerActions b.
Proof. reflexivity. Qed.

Create Rewrite HintDb builder.

#[local] Hint Rewrite
  panelHeaderActions_build headerActions_setHeaderActions
  headerActions_setTitle headerActions_setData headerActions_setOption
  headerActions_setCustomFieldConfig headerActions_setUnit
  headerActions_setOverrides : builder.

Lemma createForecastPanel_headerActions (title query : string) :
  panelHeaderActions (createForecastPanel title query)
  = [SceneBaseliner forecastBaseliner].
Proof.
  unfold createForecastPanel. now autorewrite with builder.
Qed.

Lemma createAnomalyDetectionPanel_headerActions (title query : string) :
  panelHeaderActions (createAnomalyDetectionPanel title query)
  = [SceneBaseliner anomalyBaseliner].
Proof.
  unfold createAnomalyDetectionPanel. now autorewrite with builder.
Qed.

Lemma createComparativeForecastPanel_headerActions (u : unit) :
  panelHeaderActions (createComparativeForecastPanel u)
  = [SceneBaseliner comparativeBaseliner].
Proof.
  unfold createComparativeForecastPanel. now autorewrite with builder.
Qed.

Lemma createLongTermForecastPanel_headerActions
  (NumberToString : Js.number -> string)
  (title query : string) (forecastHours : option Js.number) :
  panelHeaderActions
    (createLongTermForecastPanel NumberToString title query forecastHours)
  = [SceneBaseliner longTermBaseliner].
Proof.
  unfold createLongTermForecastPanel. now autorewrite with builder.
Qed.

(** The baseliners of a panel are those of its header actions. *)
Lemma baseliners_panel (o : SceneObject) :
  isVizPanel o = true ->
  baseliners o = flat_map baseliners (panelHeaderActions o).
Proof. destruct o; try discriminate. reflexivity. Qed.

Lemma baselinerInRange_single (o : SceneObject) (st : SceneBaselinerState) :
  baseliners o = [st] ->
  in_open_unit (interval st) = true ->
  baselinerInRange o.
Proof.
  intros B R. unfold baselinerInRange. rewrite B. split.
  - reflexivity.
  - constructor; [exact R | constructor].
Qed.

(** Closes [baselinerInRange] of a panel whose baseliner is [st]. *)
Ltac one_baseliner st :=
  apply (baselinerInRange_single _ st); reflexivity.

(** C2: each of the four panel functions constructs one baseliner, and its
    interval (0.95, 0.99, 0.90, 0.80) is strictly between 0 and 1, whatever
    the title, the query and the forecast hours. *)
Theorem panel_baseliner_intervals_in_open_unit :
  forall (NumberToString : Js.number -> string)
         (title query : string) (forecastHours : option Js.number),
    baselinerInRange (createForecastPanel title query) /\
    baselinerInRange (createAnomalyDetectionPanel title query) /\
    baselinerInRange (createComparativeForecastPanel tt) /\
    baselinerInRange
      (createLongTermForecastPanel NumberToString title query forecastHours).
Proof.
  intros. split; [ | split; [ | split ] ].
  - one_baseliner forecastBaseliner.
  - one_baseliner anomalyBaseliner.
  - one_baseliner comparativeBaseliner.
  - one_baseliner longTermBaseliner.
Qed.

Lemma baselinerAttached_single (o : SceneObject) (cfg : SceneBaselinerState) :
  isVizPanel o = true ->
  panelHeaderActions o = [SceneBaseliner cfg] ->
  baselinerAttached o cfg.
Proof.
  intros V H. unfold baselinerAttached. rewrite H. split; [exact V | split].
  - now left.
  - reflexivity.
Qed.

(** C3: every panel the file builds (forecast, anomaly detection,
    comparative, long term) is a panel with a SceneBaseliner among its header
    actions, whatever the title and the query; so is every panel of the
    dashboard. *)
Theorem panels_have_baseliner_header_action :
  forall (NumberToString : Js.number -> string)
         (title query : string) (forecastHours : option Js.number),
    baselinerAttached (createForecastPanel title query) forecastBaseliner /\
    baselinerAttached (createAnomalyDetectionPanel title query)
      anomalyBaseliner /\
    baselinerAttached (createComparativeForecastPanel tt)
      comparativeBaseliner /\
    baselinerAttached
      (createLongTermForecastPanel NumberToString title query forecastHours)
      longTermBaseliner /\
    forallb (fun st => existsb isSceneBaseliner (headerActions st))
            (panels (sceneBody (createMLDashboard tt))) = true.
Proof.
  intros. split; [ | split; [ | split; [ | split ] ] ].
  - apply baselinerAttached_single;
      [reflexivity | apply createForecastPanel_headerActions].
  - apply baselinerAttached_single;
      [reflexivity | apply createAnomalyDetectionPanel_headerActions].
  - apply baselinerAttached_single;
      [reflexivity | apply createComparativeForecastPanel_headerActions].
  - apply baselinerAttached_single;
      [reflexivity | apply createLongTermForecastPanel_headerActions].
  - reflexivity.
Qed.

(** ** The dashboard and the app *)

Lemma createMLDashboard_summary :
  summarise (createMLDashboard tt) =
  {| summaryTimeRange := {| from := "now-24h"; to := "now" |};
     summaryVariables := ["instance"; "job"];
     summaryPanels := [
       ("CPU Usage Forecast",
        ["avg(rate(cpu_usage_seconds_total" ++ instanceJobMatchers
         ++ "[5m])) * 100"],
        [forecastBaseliner]);
       ("Memory Usage Forecast",
        ["avg(memory_usage_bytes" ++ instanceJobMatchers
         ++ ") / 1024 / 1024 / 1024"],
        [forecastBaseliner]);
       ("Network Traffic Anomaly Detection",
        ["sum(rate(network_bytes_total" ++ instanceJobMatchers ++ "[5m]))"],
        [anomalyBaseliner]);
       ("Multi-Metric Forecast Comparison",
        ["rate(http_requests_total[5m])"; "rate(cpu_usage_total[5m])"],
        [comparativeBaseliner]) ] |}.
Proof. reflexivity. Qed.

(** *** The objects at run time and their configuration *)

Lemma configOf_createForecastPanel (t q : string) (w : Runtime.World) :
  configOf (fst (Runtime.createForecastPanel t q w)) = createForecastPanel t q.
Proof. reflexivity. Qed.

Lemma configOf_createAnomalyDetectionPanel
  (t q : string) (w : Runtime.World) :
  configOf (fst (Runtime.createAnomalyDetectionPanel t q w))
  = createAnomalyDetectionPanel t q.
Proof. reflexivity. Qed.

Lemma configOf_createComparativeForecastPanel (w : Runtime.World) :
  configOf (fst (Runtime.createComparativeForecastPanel tt w))
  = createComparativeForecastPanel tt.
Proof. reflexivity. Qed.

Lemma sceneConfigOf_createMLDashboard (w : Runtime.World) :
  sceneConfigOf (fst (Runtime.createMLDashboard tt w)) = createMLDashboard tt.
Proof. reflexivity. Qed.

(** Building the app draws two keys, building the dashboard twenty-seven;
    neither touches the clock or the random source's sequence. *)
Lemma createMLForecastApp_world (w : Runtime.World) :
  snd (Runtime.createMLForecastApp tt w)
  = {| Runtime.uuids := Runtime.uuids w;
       Runtime.drawn := 2 + Runtime.drawn w;
       Runtime.now := Runtime.now w |}.
Proof. reflexivity. Qed.

Lemma createMLDashboard_world (w : Runtime.World) :
  snd (Runtime.createMLDashboard tt w)
  = {| Runtime.uuids := Runtime.uuids w;
       Runtime.drawn := 27 + Runtime.drawn w;
       Runtime.now := Runtime.now w |}.
Proof. reflexivity. Qed.

(** The key of the app and the time range value of its scene are read off
    the world. *)
Lemma createMLForecastApp_key (w : Runtime.World) :
  Runtime.key (fst (Runtime.createMLForecastApp tt w))
  = Runtime.uuids w (S (Runtime.drawn w)).
Proof. reflexivity. Qed.

Lemma createMLDashboard_timeValue (w : Runtime.World) :
  sceneTimeValue (fst (Runtime.createMLDashboard tt w))
  = {| Runtime.fromTime := Some (Runtime.now w - 86400000)%Z;
       Runtime.toTime := Some (Runtime.now w) |}.
Proof. reflexivity. Qed.

(** C9, as stated, fails: two calls of [createMLForecastApp], one after
    the other, give apps that differ, in the key the base constructor drew
    for each; and the scene of the first app built at two instants of the
    clock differs in the evaluated value of its time range. *)
Lemma createMLForecastApp_calls_differ :
  Runtime.key (fst firstCall) = "uuid-1" /\
  Runtime.key (fst secondCall) = "uuid-3" /\
  fst firstCall <> fst secondCall /\
  map sceneTimeValue
      (scenesOf (fst firstCall) forecastRoute (worldAt 1700000000000))
    = [ {| Runtime.fromTime := Some 1699913600000%Z;
           Runtime.toTime := Some 1700000000000%Z |} ] /\
  map sceneTimeValue
      (scenesOf (fst firstCall) forecastRoute (worldAt 1700000060000))
    = [ {| Runtime.fromTime := Some 1699913660000%Z;
           Runtime.toTime := Some 1700000060000%Z |} ].
Proof.
  split; [reflexivity | split; [reflexivity | split; [ | split ] ] ].
  - intros E. apply (f_equal Runtime.key) in E.
    unfold secondCall, firstCall in E.
    rewrite createMLForecastApp_world, !createMLForecastApp_key in E.
    vm_compute in E. discriminate E.
  - reflexivity.
  - reflexivity.
Qed.

(** C9, as amended: the configuration [createMLForecastApp] supplies does
    not depend on the world.  Whatever the random source and the clock
    when the app is made ([w1], [w2]) and when its scene is built ([v1],
    [v2]), and whatever the route match, the apps agree once keys and the
    evaluated time range value are dropped: one page, titled 'ML
    Forecasting Dashboard', at route path '/ml-forecast', whose scene has
    the time range now-24h to now, the variables instance and job, and the
    four panels with their queries and baseliner settings. *)
Theorem createMLForecastApp_configuration_independent_of_world :
  forall w1 w2 v1 v2 : Runtime.World,
    appConfigOf v1 (fst (Runtime.createMLForecastApp tt w1))
      = appConfigOf v2 (fst (Runtime.createMLForecastApp tt w2)) /\
    map pageTitle
        (pages (appConfigOf v1 (fst (Runtime.createMLForecastApp tt w1))))
      = ["ML Forecasting Dashboard"] /\
    map routePath
        (pages (appConfigOf v1 (fst (Runtime.createMLForecastApp tt w1))))
      = ["/ml-forecast"] /\
    (forall m1 m2 : SceneRouteMatch,
       map sceneConfigOf
           (scenesOf (fst (Runtime.createMLForecastApp tt w1)) m1 v1)
       = map sceneConfigOf
             (scenesOf (fst (Runtime.createMLForecastApp tt w2)) m2 v2)) /\
    (forall m : SceneRouteMatch,
       map (fun s => summarise (sceneConfigOf s))
           (scenesOf (fst (Runtime.createMLForecastApp tt w1)) m v1)
       = [ {| summaryTimeRange := {| from := "now-24h"; to := "now" |};
              summaryVariables := ["instance"; "job"];
              summaryPanels := [
                ("CPU Usage Forecast",
                 ["avg(rate(cpu_usage_seconds_total{instance=~"
                  ++ String "034" "$instance"
                  ++ String "034" ", job=~"
                  ++ String "034" "$job"
                  ++ String "034" "}[5m])) * 100"],
                 [{| interval := 0.95; discoverSeasonalities := true;
                     pinned := false |}]);
                ("Memory Usage Forecast",
                 ["avg(memory_usage_bytes{instance=~"
                  ++ String "034" "$instance"
                  ++ String "034" ", job=~"
                  ++ String "034" "$job"
                  ++ String "034" "}) / 1024 / 1024 / 1024"],
                 [{| interval := 0.95; discoverSeasonalities := true;
                     pinned := false |}]);
                ("Network Traffic Anomaly Detection",
                 ["sum(rate(network_bytes_total{instance=~"
                  ++ String "034" "$instance"
                  ++ String "034" ", job=~"
                  ++ String "034" "$job"
                  ++ String "034" "}[5m]))"],
                 [{| interval := 0.99; discoverSeasonalities := true;
                     pinned := false |}]);
                ("Multi-Metric Forecast Comparison",
                 ["rate(http_requests_total[5m])";
                  "rate(cpu_usage_total[5m])"],
                 [{| interval := 0.90; discoverSeasonalities := true;
                     pinned := false |}]) ] |} ]).
Proof.
  intros w1 w2 v1 v2.
  assert (S : forall (w v : Runtime.World) (m : SceneRouteMatch),
             map sceneConfigOf
                 (scenesOf (fst (Runtime.createMLForecastApp tt w)) m v)
             = [createMLDashboard tt]).
  { intros w v m. unfold scenesOf.
    cbn [Runtime.createMLForecastApp Runtime.bind Runtime.new Runtime.uuidv4
         Runtime.ret fst Runtime.state Runtime.pages Runtime.getScene map].
    now rewrite sceneConfigOf_createMLDashboard. }
  split; [ | split; [ | split; [ | split ] ] ].
  - reflexivity.
  - reflexivity.
  - reflexivity.
  - intros m1 m2. now rewrite !S.
  - intros m. rewrite <- map_map, S. cbn [map].
    rewrite createMLDashboard_summary. reflexivity.
Qed.

(** * Further properties of the utilities and the panels *)

(** ** [createAdvancedBaseliner] *)

Lemma baselinerInRange_baseliner (st : SceneBaselinerState) :
  baselinerInRange (SceneBaseliner st) <-> in_open_unit (interval st) = true.
Proof.
  unfold baselinerInRange. cbn [baseliners length]. split.
  - intros [_ F]. now inversion F.
  - intros R. split; [reflexivity | constructor; [exact R | constructor]].
Qed.

Lemma createAdvancedBaseliner_unfold (o : option Options.t) :
  createAdvancedBaseliner o =
  SceneBaseliner {| interval := Js.or (Js.optChain o Options.interval) 0.95;
                    discoverSeasonalities := true;
                    pinned := false |}.
Proof. reflexivity. Qed.

(** The fallback never yields a falsy number when its default is truthy. *)
Lemma Js_or_ToBoolean (v : option Js.number) (d : Js.number) :
  Js.ToBoolean d = true -> Js.ToBoolean (Js.or v d) = true.
Proof.
  intros D. destruct v as [c | ]; [ | exact D ].
  unfold Js.or. destruct (Js.ToBoolean c) eqn:T; [exact T | exact D].
Qed.


(** X2: for every options argument, present or not, the baseliner that
    [createAdvancedBaseliner] returns has an interval that is neither 0 nor
    NaN, discovers seasonalities and is not pinned. *)
Theorem createAdvancedBaseliner_interval_truthy :
  forall o : option Options.t,
    exists st : SceneBaselinerState,
      createAdvancedBaseliner o = SceneBaseliner st /\
      Js.ToBoolean (interval st) = true /\
      discoverSeasonalities st = true /\
      pinned st = false.
Proof.
  intros o. rewrite createAdvancedBaseliner_unfold.
  eexists. split; [reflexivity | ]. cbn [interval discoverSeasonalities pinned].
  split; [ | split; reflexivity ].
  apply Js_or_ToBoolean. reflexivity.
Qed.

(** X3: the baseliner returned by [createAdvancedBaseliner] has its interval
    in (0,1) exactly when the caller's interval is absent, is falsy (0 or
    NaN, replaced by the default), or is itself in (0,1). *)
Theorem createAdvancedBaseliner_in_range_iff :
  forall o : option Options.t,
    baselinerInRange (createAdvancedBaseliner o) <->
    (forall c : Js.number,
       Js.optChain o Options.interval = Some c ->
       Js.ToBoolean c = true ->
       in_open_unit c = true).
Proof.
  intros o. rewrite createAdvancedBaseliner_unfold, baselinerInRange_baseliner.
  cbn [interval]. destruct (Js.optChain o Options.interval) as [c | ].
  - destruct (Js.ToBoolean c) eqn:T.
    + rewrite (Js_or_truthy _ _ T). split.
      * intros R c' E _. now injection E as <-.
      * intros H. now apply H.
    + rewrite (Js_or_falsy _ _ T). split.
      * intros _ c' E T'. injection E as <-. congruence.
      * reflexivity.
  - rewrite Js_or_undefined. split.
    + intros _ c E. discriminate E.
    + reflexivity.
Qed.


(** ** [createLongTermForecastPanel] *)

(** X5: the forecast hours default to 24 only when the argument is omitted;
    a value that is given, 0 and NaN included, is used as it is, and the
    panel's title is the given title followed by the hours in brackets. *)
Theorem createLongTermForecastPanel_title :
  forall (NumberToString : Js.number -> string) (ttl query : string),
    createLongTermForecastPanel NumberToString ttl query None
    = createLongTermForecastPanel NumberToString ttl query (Some 24%float)
    /\
    forall forecastHours : Js.number,
      map title
          (panels (createLongTermForecastPanel NumberToString ttl query
                     (Some forecastHours)))
      = [ttl ++ " (" ++ NumberToString forecastHours ++ "h forecast)"].
Proof.
  intros toS t q. split.
  - unfold createLongTermForecastPanel. now cbn [Js.defaultParam].
  - intros fh. reflexivity.
Qed.


(** ** All panels and baseliners of the file *)

(** X7: every baseliner the file constructs discovers seasonalities; the
    long-term panel's baseliner is pinned, and no other is: not those of the
    forecast, anomaly and comparative panels, not the one returned by
    [createAdvancedBaseliner], and none of the dashboard. *)
Theorem baseliners_discovery_and_pinning :
  forall (NumberToString : Js.number -> string) (title query : string)
         (forecastHours : option Js.number) (o : option Options.t),
    Forall (fun st => discoverSeasonalities st = true)
      (baseliners (createForecastPanel title query)
       ++ baseliners (createAnomalyDetectionPanel title query)
       ++ baseliners (createComparativeForecastPanel tt)
       ++ baseliners (createLongTermForecastPanel NumberToString title query
                        forecastHours)
       ++ baseliners (createAdvancedBaseliner o)
       ++ baseliners (sceneBody (createMLDashboard tt)))%list /\
    Forall (fun st => pinned st = false)
      (baseliners (createForecastPanel title query)
       ++ baseliners (createAnomalyDetectionPanel title query)
       ++ baseliners (createComparativeForecastPanel tt)
       ++ baseliners (createAdvancedBaseliner o)
       ++ baseliners (sceneBody (createMLDashboard tt)))%list /\
    Forall (fun st => pinned st = true)
      (baseliners (createLongTermForecastPanel NumberToString title query
                     forecastHours)).
Proof.
  intros toS t q fh o.
  rewrite (baseliners_panel (createForecastPanel t q)) by reflexivity.
  rewrite (baseliners_panel (createAnomalyDetectionPanel t q)) by reflexivity.
  rewrite (baseliners_panel (createComparativeForecastPanel tt)) by reflexivity.
  rewrite (baseliners_panel (createLongTermForecastPanel toS t q fh))
    by reflexivity.
  rewrite createForecastPanel_headerActions,
    createAnomalyDetectionPanel_headerActions,
    createComparativeForecastPanel_headerActions,
    createLongTermForecastPanel_headerActions,
    createAdvancedBaseliner_unfold.
  split; [ | split ]; repeat constructor.
Qed.

(** X8: every panel the file builds, those of the dashboard included, is
    bound to the query source: a time series panel whose data is a query
    runner on the prometheus data source, with at least one query and
    pairwise distinct [refId]s. *)
Theorem panels_bound_to_prometheus :
  forall (NumberToString : Js.number -> string) (title query : string)
         (forecastHours : option Js.number),
    Forall boundToPrometheus
      (panels (createForecastPanel title query)
       ++ panels (createAnomalyDetectionPanel title query)
       ++ panels (createComparativeForecastPanel tt)
       ++ panels (createLongTermForecastPanel NumberToString title query
                    forecastHours)
       ++ panels (sceneBody (createMLDashboard tt)))%list.
Proof.
  intros toS t q fh.
  unfold createForecastPanel, createAnomalyDetectionPanel,
    createComparativeForecastPanel, createLongTermForecastPanel,
    createMLDashboard.
  cbn [panels build app flat_map sceneBody children body].
  repeat (apply Forall_cons;
          [ split; [reflexivity | ];
            eexists; split; [reflexivity | ];
            split; [reflexivity | ];
            split; [discriminate | ];
            repeat constructor; cbn [In]; intuition discriminate
          | ]).
  apply Forall_nil.
Qed.

(** X9: the panel functions with a query argument run exactly that query,
    unchanged and alone, and the forecast and anomaly panels are titled
    exactly as asked. *)
Theorem panels_run_given_query :
  forall (NumberToString : Js.number -> string) (ttl query : string)
         (forecastHours : option Js.number),
    map (fun st => (title st, panelQueries st))
        (panels (createForecastPanel ttl query)) = [(ttl, [query])] /\
    map (fun st => (title st, panelQueries st))
        (panels (createAnomalyDetectionPanel ttl query))
      = [(ttl, [query])] /\
    flat_map panelQueries
        (panels (createLongTermForecastPanel NumberToString ttl query
                   forecastHours)) = [query].
Proof.
  intros. split; [ | split ]; reflexivity.
Qed.

(** X10: the confidence levels are ordered as the source's comments say:
    the anomaly panel's baseliner has a higher interval than the forecast
    panel's, and the long-term panel's a lower one than every other panel's
    (long term < comparative < forecast < anomaly), for all arguments. *)
Theorem panel_intervals_ordered :
  forall (NumberToString : Js.number -> string) (ttl query : string)
         (forecastHours : option Js.number),
    exists l c f a : Js.number,
      map interval
          (baseliners (createLongTermForecastPanel NumberToString ttl query
                         forecastHours)) = [l] /\
      map interval (baseliners (createComparativeForecastPanel tt)) = [c] /\
      map interval (baseliners (createForecastPanel ttl query)) = [f] /\
      map interval (baseliners (createAnomalyDetectionPanel ttl query)) = [a] /\
      (l <? c)%float = true /\ (c <? f)%float = true /\ (f <? a)%float = true.
Proof.
  intros toS t q fh.
  rewrite (baseliners_panel (createForecastPanel t q)) by reflexivity.
  rewrite (baseliners_panel (createAnomalyDetectionPanel t q)) by reflexivity.
  rewrite (baseliners_panel (createComparativeForecastPanel tt)) by reflexivity.
  rewrite (baseliners_panel (createLongTermForecastPanel toS t q fh))
    by reflexivity.
  rewrite createForecastPanel_headerActions,
    createAnomalyDetectionPanel_headerActions,
    createComparativeForecastPanel_headerActions,
    createLongTermForecastPanel_headerActions.
  exists (interval longTermBaseliner), (interval comparativeBaseliner),
    (interval forecastBaseliner), (interval anomalyBaseliner).
  repeat split.
Qed.
